(** * re-export-tokenizer-json.py: load a tokenizer and save it back

    The script is two statements,

      tokenizer = AutoTokenizer.from_pretrained(sys.argv[1])
      tokenizer.save_pretrained(sys.argv[1])

    run by the Python interpreter with no exception handler around them.
    The two imports before them bind [sys] and [AutoTokenizer]; the
    embedding starts where those names are bound and takes what the
    [transformers] import provides as a value of type [library].
    It keeps the shape of the statements: the module body is a computation
    in an exception-over-state monad, the two library entry points are
    parameters, and the process state carries the outside world together
    with a log of the library calls that were made. *)

From Stdlib Require Import String List ZArith.
From ExtLib Require Import Structures.Monad Structures.MonadState Structures.MonadExc.
From ExtLib Require Import Data.Monads.StateMonad Data.Monads.EitherMonad.
Import ListNotations.
Import MonadNotation.
Local Open Scope monad_scope.
Local Open Scope string_scope.

Set Implicit Arguments.

(** ** Python values the script handles *)

(** Outcome of a call into the library: it raises or it returns. *)
Inductive result (E A : Type) : Type :=
| Raised (e : E)
| Returned (a : A).
Arguments Raised {E A} e.
Arguments Returned {E A} a.

(** Exceptions that can reach the top level of the script: the
    [IndexError] of the subscript [sys.argv[1]], or whatever the library
    raised. *)
Inductive exn (LibError : Type) : Type :=
| IndexError
| LibraryError (e : LibError).
Arguments IndexError {LibError}.
Arguments LibraryError {LibError} e.

Module Transformers.

(** The interface of the external library as the script sees it.  Both
    entry points run against the outside world (file system, model hub,
    download cache, the library's own heap) and hand back the world
    they leave behind.  [message] is [str(e)] of a library exception. *)
Record library : Type := Library {
  Tokenizer : Type;
  LibError : Type;
  Written : Type;
  World : Type;
  from_pretrained : string -> World -> result LibError Tokenizer * World;
  save_pretrained : Tokenizer -> string -> World -> result LibError Written * World;
  message : LibError -> string
}.

End Transformers.
Import Transformers.

Section Script.

Variable L : library.

(** One entry of the call log: which entry point, with which arguments,
    and what came back. *)
Inductive call : Type :=
| Loaded (path : string) (r : result (LibError L) (Tokenizer L))
| Saved (tokenizer : Tokenizer L) (path : string) (r : result (LibError L) (Written L)).

Definition call_path (c : call) : string :=
  match c with
  | Loaded p _ => p
  | Saved _ p _ => p
  end.

Definition call_raised (c : call) : option (LibError L) :=
  match c with
  | Loaded _ (Raised e) => Some e
  | Saved _ _ (Raised e) => Some e
  | _ => None
  end.

Definition is_save (c : call) : bool :=
  match c with
  | Saved _ _ _ => true
  | Loaded _ _ => false
  end.

(** State of the running process. *)
Record process : Type := Process {
  world : World L;
  log : list call
}.

(** Statements run in sequence; a raised exception skips the rest and
    keeps the state reached so far. *)
Definition py : Type -> Type := eitherT (exn (LibError L)) (state process).

Definition exec {A} (c : py A) (s : process) : (exn (LibError L) + A) * process :=
  runState (unEitherT c) s.

(** [l[i]] for a list and a non-negative index. *)
Definition subscript (l : list string) (i : nat) : py string :=
  match nth_error l i with
  | Some x => ret x
  | None => raise IndexError
  end.

(** [AutoTokenizer.from_pretrained(path)] *)
Definition AutoTokenizer_from_pretrained (path : string) : py (Tokenizer L) :=
  s <- get ;;
  let (r, w) := from_pretrained L path (world s) in
  put {| world := w; log := log s ++ [Loaded path r] |} ;;
  match r with
  | Raised e => raise (LibraryError e)
  | Returned t => ret t
  end.

(** [tokenizer.save_pretrained(path)] *)
Definition tokenizer_save_pretrained (tokenizer : Tokenizer L) (path : string) : py (Written L) :=
  s <- get ;;
  let (r, w) := save_pretrained L tokenizer path (world s) in
  put {| world := w; log := log s ++ [Saved tokenizer path r] |} ;;
  match r with
  | Raised e => raise (LibraryError e)
  | Returned x => ret x
  end.

(** The module body, lines 6 and 7.  [sys.argv[1]] is evaluated once in
    each statement, as written. *)
Definition module_body (argv : list string) : py unit :=
  a <- subscript argv 1 ;;
  tokenizer <- AutoTokenizer_from_pretrained a ;;
  a' <- subscript argv 1 ;;
  _ <- tokenizer_save_pretrained tokenizer a' ;;
  ret tt.

(** ** The process as seen from outside *)

Record outcome : Type := Outcome {
  uncaught : option (exn (LibError L));
  calls : list call;
  final : World L
}.

(** Run the script as [python re-export-tokenizer-json.py args...] with
    [argv] the whole of [sys.argv] (script name first). *)
Definition run (argv : list string) (w : World L) : outcome :=
  let (r, s) := exec (module_body argv) {| world := w; log := [] |} in
  {| uncaught := match r with inl e => Some e | inr _ => None end;
     calls := log s;
     final := world s |}.

(** The interpreter exits with 0 when the module body completes and
    with 1 when an exception is left unhandled. *)
Definition exit_status (o : outcome) : Z :=
  match uncaught o with
  | None => 0
  | Some _ => 1
  end.

(** What the traceback reports for the unhandled exception. *)
Definition describe (e : exn (LibError L)) : string :=
  match e with
  | IndexError => "list index out of range"
  | LibraryError e => message L e
  end.

Definition diagnostic (o : outcome) : option string :=
  option_map describe (uncaught o).

End Script.

Arguments Loaded {L} path r.
Arguments Saved {L} tokenizer path r.
Arguments Outcome {L} uncaught calls final.
Arguments run L argv w : clear implicits.

Unset Implicit Arguments.

Section Outcomes.

Variable L : library.

(** ** The four ways a run can go *)

(** [pass argv w o]: the run of the script on [argv] from world [w] ends
    in [o].  One constructor per place where the module body can stop. *)
Inductive pass (argv : list string) (w : World L) : outcome L -> Prop :=
| NoArgument :
    nth_error argv 1 = None ->
    pass argv w (Outcome (Some IndexError) [] w)
| LoadRaises a e w1 :
    nth_error argv 1 = Some a ->
    from_pretrained L a w = (Raised e, w1) ->
    pass argv w (Outcome (Some (LibraryError e)) [Loaded a (Raised e)] w1)
| SaveRaises a t w1 e w2 :
    nth_error argv 1 = Some a ->
    from_pretrained L a w = (Returned t, w1) ->
    save_pretrained L t a w1 = (Raised e, w2) ->
    pass argv w (Outcome (Some (LibraryError e))
                         [Loaded a (Returned t); Saved t a (Raised e)] w2)
| Completes a t w1 x w2 :
    nth_error argv 1 = Some a ->
    from_pretrained L a w = (Returned t, w1) ->
    save_pretrained L t a w1 = (Returned x, w2) ->
    pass argv w (Outcome None
                         [Loaded a (Returned t); Saved t a (Returned x)] w2).

(** A run that makes two calls, a load and then a save. *)
Definition exactly_two_operations (argv : list string) (w : World L) : Prop :=
  exists c1 c2,
    calls (run L argv w) = [c1; c2] /\ is_save c1 = false /\ is_save c2 = true.


(** ** What the script adds to a contract of the library

    Whether a tokenizer behaves the same after it was saved and loaded
    again is decided inside the library.  The script contributes that the
    value saved is the value loaded and that both calls name one location;
    the rest is a law of the serializer, stated here as [faithful_serializer]. *)

Section Tokenization.

(** Tokenization behaviour of a loaded tokenizer: text to token IDs. *)
Variable encode : Tokenizer L -> string -> list Z.

Definition same_tokenization (t t' : Tokenizer L) : Prop :=
  forall text, encode t' text = encode t text.

(** Loading from where a tokenizer was just saved gives a tokenizer that
    encodes alike. *)
Definition faithful_serializer : Prop :=
  forall t p w x w',
    save_pretrained L t p w = (Returned x, w') ->
    exists t' w'', from_pretrained L p w' = (Returned t', w'') /\ same_tokenization t t'.

(** The directory named on the command line loads before the run, and
    after the run it loads again to a tokenizer that encodes alike. *)
Definition reexport_preserves_tokenization (argv : list string) (w : World L) : Prop :=
  forall a t w1,
    nth_error argv 1 = Some a ->
    from_pretrained L a w = (Returned t, w1) ->
    exists t' w2,
      from_pretrained L a (final (run L argv w)) = (Returned t', w2) /\
      same_tokenization t t'.

End Tokenization.

End Outcomes.

(** ** A library to run the script against

    A small stand-in for the real library, used to evaluate the script on
    concrete command lines.  The world is a list of directories, each
    holding a vocabulary; loading looks the directory up, saving puts the
    vocabulary in front of the list.  The empty path cannot be written
    to, which gives a run whose save raises. *)
Module Mock.

Definition vocabulary : Type := list string.

Definition disk : Type := list (string * vocabulary).

Fixpoint lookup (path : string) (d : disk) : option vocabulary :=
  match d with
  | [] => None
  | (p, v) :: rest => if String.eqb p path then Some v else lookup path rest
  end.

Definition load (path : string) (d : disk) : result string vocabulary * disk :=
  match lookup path d with
  | Some v => (Returned v, d)
  | None => (Raised ("no tokenizer found in " ++ path), d)
  end.

Definition save (v : vocabulary) (path : string) (d : disk) : result string (list string) * disk :=
  if String.eqb path ""
  then (Raised "cannot write to an empty path", d)
  else (Returned [path ++ "/tokenizer.json"], (path, v) :: d).

Definition lib : library :=
  {| Tokenizer := vocabulary;
     LibError := string;
     Written := list string;
     World := disk;
     from_pretrained := load;
     save_pretrained := save;
     message := fun e => e |}.

(** Token IDs of a text under a vocabulary: the position of the text in
    the vocabulary, if it is there. *)
Fixpoint position (text : string) (v : vocabulary) (n : Z) : list Z :=
  match v with
  | [] => []
  | word :: rest => if String.eqb word text then [n] else position text rest (n + 1)
  end.

Definition encode (v : vocabulary) (text : string) : list Z := position text v 0.

(** A second stand-in whose serializer loses the vocabulary. *)
Definition lossy_save (v : vocabulary) (path : string) (d : disk) : result string (list string) * disk :=
  save [] path d.

Definition lossy_lib : library :=
  {| Tokenizer := vocabulary;
     LibError := string;
     Written := list string;
     World := disk;
     from_pretrained := load;
     save_pretrained := lossy_save;
     message := fun e => e |}.



Definition script : string := "re-export-tokenizer-json.py".

Definition disk0 : disk := [("gpt2", ["a"; "b"]); ("", ["z"])].

End Mock.

(** ** Concrete runs *)

Example run_no_argument_example :
  run Mock.lib [Mock.script] Mock.disk0
  = Outcome (L := Mock.lib) (Some IndexError) [] Mock.disk0.
Proof. reflexivity. Qed.

Example run_unknown_directory_example :
  run Mock.lib [Mock.script; "bert"] Mock.disk0
  = Outcome (L := Mock.lib) (Some (LibraryError "no tokenizer found in bert"))
            [Loaded (L := Mock.lib) "bert" (Raised "no tokenizer found in bert")]
            Mock.disk0.
Proof. reflexivity. Qed.

Example run_save_fails_example :
  run Mock.lib [Mock.script; ""] Mock.disk0
  = Outcome (L := Mock.lib) (Some (LibraryError "cannot write to an empty path"))
            [Loaded (L := Mock.lib) "" (Returned ["z"]);
             Saved (L := Mock.lib) ["z"] "" (Raised "cannot write to an empty path")]
            Mock.disk0.
Proof. reflexivity. Qed.

Example run_success_example :
  run Mock.lib [Mock.script; "gpt2"; "--ignored"] Mock.disk0
  = Outcome (L := Mock.lib) None
            [Loaded (L := Mock.lib) "gpt2" (Returned ["a"; "b"]);
             Saved (L := Mock.lib) ["a"; "b"] "gpt2" (Returned ["gpt2/tokenizer.json"])]
            (("gpt2", ["a"; "b"]) :: Mock.disk0).
Proof. reflexivity. Qed.

(** ** Every run is one of the four *)

Lemma run_pass (L : library) (argv : list string) (w : World L) :
  pass L argv w (run L argv w).
Proof.
  unfold run, exec, module_body, subscript.
  destruct (nth_error argv 1) as [a|] eqn:Ha; cbn.
  - destruct (from_pretrained L a w) as [[e|t] w1] eqn:Hload; cbn.
    + eapply LoadRaises; eassumption.
    + destruct (save_pretrained L t a w1) as [[e|x] w2] eqn:Hsave; cbn.
      * eapply SaveRaises; eassumption.
      * eapply Completes; eassumption.
  - now apply NoArgument.
Qed.

(** ** Results about the script *)

(** Inspect a run case by case, with the log in front of us. *)
Ltac cases_of_run L argv w :=
  destruct (run_pass L argv w)
    as [Harg | arg exc wl Harg Hload
        | arg tok wl exc ws Harg Hload Hsave | arg tok wl ret ws Harg Hload Hsave];
  cbn [calls uncaught final In] in *.

Section Properties.

Variable L : library.

Lemma no_second_element (argv : list string) :
  length argv <= 1 -> nth_error argv 1 = None.
Proof. intros Hlen. now apply nth_error_None. Qed.

(** The run is a function of the command line and the world, so each
    constructor of [pass] gives an equation. *)
Lemma run_no_argument (argv : list string) (w : World L) :
  nth_error argv 1 = None ->
  run L argv w = Outcome (Some IndexError) [] w.
Proof.
  intros Ha. destruct (run_pass L argv w); congruence.
Qed.


Lemma run_save_raises (argv : list string) (w : World L) a t w1 e w2 :
  nth_error argv 1 = Some a ->
  from_pretrained L a w = (Returned t, w1) ->
  save_pretrained L t a w1 = (Raised e, w2) ->
  run L argv w = Outcome (Some (LibraryError e))
                         [Loaded a (Returned t); Saved t a (Raised e)] w2.
Proof.
  intros Ha Hload Hsave. destruct (run_pass L argv w); congruence.
Qed.

Lemma run_completes (argv : list string) (w : World L) a t w1 x w2 :
  nth_error argv 1 = Some a ->
  from_pretrained L a w = (Returned t, w1) ->
  save_pretrained L t a w1 = (Returned x, w2) ->
  run L argv w = Outcome None
                         [Loaded a (Returned t); Saved t a (Returned x)] w2.
Proof.
  intros Ha Hload Hsave. destruct (run_pass L argv w); congruence.
Qed.

(** C2: every call into the library that a run makes, load or save,
    receives the string [sys.argv[1]] itself; so any two calls of one run,
    in particular the load and the save, name the same location. *)
Theorem argument_passed_unchanged (argv : list string) (w : World L) (c : call L) :
  In c (calls (run L argv w)) ->
  nth_error argv 1 = Some (call_path c) /\
  (forall c', In c' (calls (run L argv w)) -> call_path c' = call_path c).
Proof.
  cases_of_run L argv w; intros Hin.
  - contradiction.
  - destruct Hin as [<- | []]. split; [exact Harg |].
    intros c' [<- | []]. reflexivity.
  - destruct Hin as [<- | [<- | []]]; (split; [exact Harg |]);
      intros c' [<- | [<- | []]]; reflexivity.
  - destruct Hin as [<- | [<- | []]]; (split; [exact Harg |]);
      intros c' [<- | [<- | []]]; reflexivity.
Qed.

(** C3: with no argument after the script name, the subscript
    [sys.argv[1]] raises [IndexError]; it is left unhandled, the exit
    status is 1, and no call into the library has been made. *)
Theorem missing_argument_index_error (argv : list string) (w : World L) :
  length argv <= 1 ->
  uncaught (run L argv w) = Some IndexError /\
  exit_status (run L argv w) = 1%Z /\
  diagnostic (run L argv w) = Some "list index out of range" /\
  calls (run L argv w) = [].
Proof.
  intros Hlen. rewrite (run_no_argument argv w (no_second_element argv Hlen)).
  repeat split.
Qed.

(** C4: a run with no argument fails, calls neither the loader nor the
    saver, and leaves the world exactly as it found it. *)
Theorem missing_argument_world_unchanged (argv : list string) (w : World L) :
  length argv <= 1 ->
  exit_status (run L argv w) <> 0%Z /\
  (forall c, ~ In c (calls (run L argv w))) /\
  final (run L argv w) = w.
Proof.
  intros Hlen. rewrite (run_no_argument argv w (no_second_element argv Hlen)).
  cbn. repeat split; [discriminate | tauto].
Qed.


(** C6: when a call into the library raises, nothing in the script
    handles it.  That exception, as raised, is the one left unhandled at
    top level; the exit status is not 0; the reported message is the
    library's own; and the failing call is the last one of the run, every
    call before it having returned (nothing is attempted again). *)
Theorem library_error_propagates (argv : list string) (w : World L)
    (c : call L) (e : LibError L) :
  In c (calls (run L argv w)) ->
  call_raised c = Some e ->
  uncaught (run L argv w) = Some (LibraryError e) /\
  exit_status (run L argv w) <> 0%Z /\
  diagnostic (run L argv w) = Some (message L e) /\
  (exists before,
      calls (run L argv w) = (before ++ [c])%list /\
      Forall (fun c' => call_raised c' = None) before).
Proof.
  cases_of_run L argv w; intros Hin Hraised.
  - contradiction.
  - destruct Hin as [<- | []]. cbn in Hraised. injection Hraised as <-.
    repeat split; try discriminate.
    exists []. split; [reflexivity | constructor].
  - destruct Hin as [<- | [<- | []]]; cbn in Hraised; [discriminate |].
    injection Hraised as <-.
    repeat split; try discriminate.
    exists [Loaded arg (Returned tok)]. split; [reflexivity |].
    constructor; [reflexivity | constructor].
  - destruct Hin as [<- | [<- | []]]; cbn in Hraised; discriminate.
Qed.

(** C7, as amended: the calls of a run are an initial part of the
    sequence load, save.  None is made when [sys.argv[1]] is missing; the
    load alone when it raises; and when the load returns, the save follows
    it, on the object and in the world the load handed back.  A save is
    thus always preceded by a load that returned. *)
Theorem load_then_save_in_order (argv : list string) (w : World L) :
  (nth_error argv 1 = None /\ calls (run L argv w) = []) \/
  (exists a e,
      nth_error argv 1 = Some a /\
      from_pretrained L a w = (Raised e, final (run L argv w)) /\
      calls (run L argv w) = [Loaded a (Raised e)]) \/
  (exists a t w1 r,
      nth_error argv 1 = Some a /\
      from_pretrained L a w = (Returned t, w1) /\
      save_pretrained L t a w1 = (r, final (run L argv w)) /\
      calls (run L argv w) = [Loaded a (Returned t); Saved t a r] /\
      exactly_two_operations L argv w).
Proof.
  unfold exactly_two_operations.
  cases_of_run L argv w.
  - left. split; [exact Harg | reflexivity].
  - right; left. exists arg, exc. repeat split; assumption.
  - right; right. exists arg, tok, wl, (Raised exc).
    repeat split; try assumption.
    eexists _, _. repeat split.
  - right; right. exists arg, tok, wl, (Returned ret).
    repeat split; try assumption.
    eexists _, _. repeat split.
Qed.

(** C9: whenever the saver is called, its receiver is the very value the
    loader returned for the same path, and it runs in the world the loader
    left, with no step of the script in between. *)
Theorem saver_receives_loaded_tokenizer (argv : list string) (w : World L)
    (t : Tokenizer L) (p : string) (r : result (LibError L) (Written L)) :
  In (Saved t p r) (calls (run L argv w)) ->
  exists w1,
    from_pretrained L p w = (Returned t, w1) /\
    save_pretrained L t p w1 = (r, final (run L argv w)) /\
    calls (run L argv w) = [Loaded p (Returned t); Saved t p r].
Proof.
  cases_of_run L argv w; intros Hin.
  - contradiction.
  - destruct Hin as [Heq | []]. discriminate.
  - destruct Hin as [Heq | [Heq | []]]; [discriminate |].
    injection Heq as <- <- <-. exists wl. repeat split; assumption.
  - destruct Hin as [Heq | [Heq | []]]; [discriminate |].
    injection Heq as <- <- <-. exists wl. repeat split; assumption.
Qed.

(** C10: two command lines with the same [sys.argv[1]] give the same run
    from the same world, whatever the script name and the arguments after
    the first are: same calls, same results, same final world. *)
Theorem only_first_argument_matters (argv argv' : list string) (w : World L) :
  nth_error argv 1 = nth_error argv' 1 ->
  run L argv w = run L argv' w.
Proof.
  intros Heq. unfold run, module_body, subscript. rewrite Heq. reflexivity.
Qed.

End Properties.

(** ** The theorems at work on concrete command lines *)

Lemma argument_passed_unchanged_witness :
  let argv := [Mock.script; "gpt2"; "--ignored"] in
  let c := Saved (L := Mock.lib) ["a"; "b"] "gpt2" (Returned ["gpt2/tokenizer.json"]) in
  In c (calls (run Mock.lib argv Mock.disk0)) /\
  nth_error argv 1 = Some (call_path c) /\
  (forall c', In c' (calls (run Mock.lib argv Mock.disk0)) ->
              call_path c' = call_path c).
Proof.
  intros argv c.
  assert (Hin : In c (calls (run Mock.lib argv Mock.disk0))).
  { cbn. right. left. reflexivity. }
  split; [exact Hin |].
  exact (argument_passed_unchanged Mock.lib argv Mock.disk0 c Hin).
Defined.

Lemma missing_argument_index_error_witness :
  length [Mock.script] <= 1 /\
  uncaught (run Mock.lib [Mock.script] Mock.disk0) = Some IndexError /\
  exit_status (run Mock.lib [Mock.script] Mock.disk0) = 1%Z /\
  diagnostic (run Mock.lib [Mock.script] Mock.disk0) = Some "list index out of range" /\
  calls (run Mock.lib [Mock.script] Mock.disk0) = [].
Proof.
  split; [apply le_n |].
  apply (missing_argument_index_error Mock.lib [Mock.script] Mock.disk0).
  apply le_n.
Defined.

Lemma missing_argument_world_unchanged_witness :
  length (@nil string) <= 1 /\
  exit_status (run Mock.lib [] Mock.disk0) <> 0%Z /\
  (forall c, ~ In c (calls (run Mock.lib [] Mock.disk0))) /\
  final (run Mock.lib [] Mock.disk0) = Mock.disk0.
Proof.
  split; [apply le_S, le_n |].
  apply (missing_argument_world_unchanged Mock.lib [] Mock.disk0).
  apply le_S, le_n.
Defined.



Lemma library_error_propagates_witness :
  let argv := [Mock.script; ""] in
  let e := "cannot write to an empty path" in
  let c := Saved (L := Mock.lib) ["z"] "" (Raised e) in
  In c (calls (run Mock.lib argv Mock.disk0)) /\
  call_raised c = Some e /\
  uncaught (run Mock.lib argv Mock.disk0) = Some (LibraryError e) /\
  exit_status (run Mock.lib argv Mock.disk0) <> 0%Z /\
  diagnostic (run Mock.lib argv Mock.disk0) = Some e /\
  (exists before,
      calls (run Mock.lib argv Mock.disk0) = (before ++ [c])%list /\
      Forall (fun c' => call_raised c' = None) before).
Proof.
  intros argv e c.
  assert (Hin : In c (calls (run Mock.lib argv Mock.disk0))).
  { cbn. right. left. reflexivity. }
  split; [exact Hin |]. split; [reflexivity |].
  exact (library_error_propagates Mock.lib argv Mock.disk0 c e Hin eq_refl).
Defined.

Lemma saver_receives_loaded_tokenizer_witness :
  let argv := [Mock.script; "gpt2"] in
  let r := Returned (E := string) ["gpt2/tokenizer.json"] in
  In (Saved (L := Mock.lib) ["a"; "b"] "gpt2" r) (calls (run Mock.lib argv Mock.disk0)) /\
  exists w1,
    from_pretrained Mock.lib "gpt2" Mock.disk0 = (Returned ["a"; "b"], w1) /\
    save_pretrained Mock.lib ["a"; "b"] "gpt2" w1
      = (r, final (run Mock.lib argv Mock.disk0)) /\
    calls (run Mock.lib argv Mock.disk0)
      = [Loaded (L := Mock.lib) "gpt2" (Returned ["a"; "b"]);
         Saved (L := Mock.lib) ["a"; "b"] "gpt2" r].
Proof.
  intros argv r.
  assert (Hin : In (Saved (L := Mock.lib) ["a"; "b"] "gpt2" r)
                   (calls (run Mock.lib argv Mock.disk0))).
  { cbn. right. left. reflexivity. }
  split; [exact Hin |].
  exact (saver_receives_loaded_tokenizer Mock.lib argv Mock.disk0 _ _ _ Hin).
Defined.

Lemma only_first_argument_matters_witness :
  let argv := [Mock.script; "gpt2"; "--ignored"; "bert"] in
  let argv' := ["other.py"; "gpt2"] in
  nth_error argv 1 = nth_error argv' 1 /\
  run Mock.lib argv Mock.disk0 = run Mock.lib argv' Mock.disk0.
Proof.
  intros argv argv'.
  split; [reflexivity |].
  apply (only_first_argument_matters Mock.lib argv argv' Mock.disk0).
  reflexivity.
Defined.

(** Counterexample to C7 as stated: a run with no argument makes no call
    at all, and a run whose load raises makes one. *)
Lemma not_exactly_two_operations :
  ~ exactly_two_operations Mock.lib [Mock.script] Mock.disk0 /\
  ~ exactly_two_operations Mock.lib [Mock.script; "bert"] Mock.disk0.
Proof.
  split; intros (c1 & c2 & Hcalls & _); cbn in Hcalls; discriminate Hcalls.
Qed.

(** ** The script under a contract of the library *)

Section Contract.

Variable L : library.
Variable encode : Tokenizer L -> string -> list Z.

Lemma reexport_preserves_under_contract (argv : list string) (w : World L) :
  faithful_serializer L encode ->
  uncaught (run L argv w) = None ->
  reexport_preserves_tokenization L encode argv w.
Proof.
  intros Hlaw Hok a t w1 Ha Hload0. revert Hok.
  cases_of_run L argv w; intros Hok; try discriminate Hok.
  assert (arg = a) as -> by congruence.
  assert (tok = t) as -> by congruence.
  exact (Hlaw t a wl ret ws Hsave).
Qed.

(** A second run from the world the first one left, both completing: the
    tokenizer found after the second encodes like the one found after the
    first. *)
Lemma second_run_preserves_under_contract (argv : list string) (w : World L) (a : string) :
  faithful_serializer L encode ->
  nth_error argv 1 = Some a ->
  uncaught (run L argv w) = None ->
  uncaught (run L argv (final (run L argv w))) = None ->
  exists t1 u1 t2 u2,
    from_pretrained L a (final (run L argv w)) = (Returned t1, u1) /\
    from_pretrained L a (final (run L argv (final (run L argv w)))) = (Returned t2, u2) /\
    same_tokenization L encode t1 t2.
Proof.
  intros Hlaw Ha _ Hok2.
  set (w' := final (run L argv w)) in *.
  assert (Hload : exists t1 u1, from_pretrained L a w' = (Returned t1, u1)).
  { revert Hok2. cases_of_run L argv w'; intros Hok2; try discriminate Hok2.
    exists tok, wl. congruence. }
  destruct Hload as (t1 & u1 & Hload).
  destruct (reexport_preserves_under_contract argv w' Hlaw Hok2 a t1 u1 Ha Hload)
    as (t2 & u2 & Hreload & Hsame).
  exists t1, u1, t2, u2. repeat split; assumption.
Qed.

End Contract.

(** The contract holds of one stand-in and fails of the other, and the
    conclusion follows suit: the script alone does not settle it. *)
Lemma mock_faithful_serializer : faithful_serializer Mock.lib Mock.encode.
Proof.
  intros t p w x w' Hsave. cbn in *. unfold Mock.save in Hsave.
  destruct (String.eqb p "") eqn:Hp; [discriminate |].
  injection Hsave as _ <-.
  exists t, ((p, t) :: w). split; [| intros text; reflexivity].
  unfold Mock.load. cbn. rewrite String.eqb_refl. reflexivity.
Qed.

Lemma mock_reexport_preserves :
  reexport_preserves_tokenization Mock.lib Mock.encode [Mock.script; "gpt2"] Mock.disk0.
Proof.
  apply reexport_preserves_under_contract.
  - exact mock_faithful_serializer.
  - reflexivity.
Qed.

Lemma lossy_reexport_changes :
  ~ reexport_preserves_tokenization Mock.lossy_lib Mock.encode [Mock.script; "gpt2"] Mock.disk0.
Proof.
  intros H.
  destruct (H "gpt2" ["a"; "b"] Mock.disk0 eq_refl eq_refl) as (t' & w2 & Hload & Hsame).
  cbn in Hload. injection Hload as <- _.
  specialize (Hsame "a"). discriminate Hsame.
Qed.

(** ** Further results on the module body *)

Section Further.

Variable L : library.

(** X1: the exit status is 0 exactly when [sys.argv[1]] exists, the load
    returns and the save, run on the loaded value in the world the load
    left, returns as well; the world then left is the saver's. *)
Theorem exit_zero_iff_both_return (argv : list string) (w : World L) :
  exit_status (run L argv w) = 0%Z <->
  exists a t w1 x,
    nth_error argv 1 = Some a /\
    from_pretrained L a w = (Returned t, w1) /\
    save_pretrained L t a w1 = (Returned x, final (run L argv w)).
Proof.
  split.
  - cases_of_run L argv w; cbn; intros Hexit; try discriminate Hexit.
    exists arg, tok, wl, ret. repeat split; assumption.
  - intros (a & t & w1 & x & Ha & Hload & Hsave).
    rewrite (run_completes L argv w a t w1 x _ Ha Hload Hsave). reflexivity.
Qed.

(** X2: the script's own subscript is what ends the run, with the
    [IndexError] of [sys.argv[1]] as opposed to an exception raised inside
    a library call, exactly when no argument follows the script name; and
    that is also exactly when the run makes no library call.  The
    subscript of the second statement therefore never raises: when it is
    reached the first one has succeeded on the same list. *)
Theorem index_error_iff_no_argument (argv : list string) (w : World L) :
  (uncaught (run L argv w) = Some IndexError <-> length argv <= 1) /\
  (calls (run L argv w) = [] <-> length argv <= 1).
Proof.
  split; split.
  - cases_of_run L argv w; intros Hexc; try discriminate Hexc.
    now apply nth_error_None.
  - intros Hlen.
    rewrite (run_no_argument L argv w (no_second_element argv Hlen)).
    reflexivity.
  - cases_of_run L argv w; intros Hcalls; try discriminate Hcalls.
    now apply nth_error_None.
  - intros Hlen.
    rewrite (run_no_argument L argv w (no_second_element argv Hlen)).
    reflexivity.
Qed.

(** X3: when the load returns and the save raises, nothing is undone or
    tried again: the saver's exception ends the process with status 1 and
    its message, the load has been made once, and the world is left as
    the failing save left it. *)
Theorem save_failure_not_rolled_back (argv : list string) (w : World L)
    (a : string) (t : Tokenizer L) (w1 : World L) (e : LibError L) (w2 : World L) :
  nth_error argv 1 = Some a ->
  from_pretrained L a w = (Returned t, w1) ->
  save_pretrained L t a w1 = (Raised e, w2) ->
  uncaught (run L argv w) = Some (LibraryError e) /\
  exit_status (run L argv w) = 1%Z /\
  diagnostic (run L argv w) = Some (message L e) /\
  calls (run L argv w) = [Loaded a (Returned t); Saved t a (Raised e)] /\
  final (run L argv w) = w2.
Proof.
  intros Ha Hload Hsave.
  rewrite (run_save_raises L argv w a t w1 e w2 Ha Hload Hsave).
  repeat split.
Qed.

(** X4: the script validates nothing.  Whatever string stands at
    [sys.argv[1]], the empty one included, the first call of the run is
    the load of that string in the initial world, and it is the only
    load of the run. *)
Theorem argument_reaches_loader_unvalidated (argv : list string) (w : World L)
    (a : string) :
  nth_error argv 1 = Some a ->
  exists rest,
    calls (run L argv w) = Loaded a (fst (from_pretrained L a w)) :: rest /\
    Forall (fun c => is_save c = true) rest.
Proof.
  intros Ha.
  cases_of_run L argv w; try congruence;
    assert (arg = a) as -> by congruence; rewrite Hload; cbn.
  - exists []. split; [reflexivity | constructor].
  - eexists. split; [reflexivity |]. constructor; [reflexivity | constructor].
  - eexists. split; [reflexivity |]. constructor; [reflexivity | constructor].
Qed.

(** X5: the saver is called exactly when the loader returned: a load
    that returns is always followed by the save, and a save never happens
    otherwise. *)
Theorem save_attempted_iff_load_returned (argv : list string) (w : World L) :
  (exists c, In c (calls (run L argv w)) /\ is_save c = true) <->
  (exists a t w1,
      nth_error argv 1 = Some a /\ from_pretrained L a w = (Returned t, w1)).
Proof.
  split.
  - cases_of_run L argv w; intros (c & Hin & Hsv).
    + contradiction.
    + destruct Hin as [<- | []]. discriminate Hsv.
    + exists arg, tok, wl. split; assumption.
    + exists arg, tok, wl. split; assumption.
  - intros (a & t & w1 & Ha & Hload0).
    cases_of_run L argv w; try congruence.
    + eexists. split; [right; left; reflexivity | reflexivity].
    + eexists. split; [right; left; reflexivity | reflexivity].
Qed.

(** X6: a run can fail for three reasons only.  The unhandled exception
    is either the [IndexError] of a missing argument, raised before any
    call, or an exception that one of the logged library calls raised;
    the script is the origin of no other failure. *)
Theorem failure_causes (argv : list string) (w : World L) (raised : exn (LibError L)) :
  uncaught (run L argv w) = Some raised ->
  (raised = IndexError /\ nth_error argv 1 = None /\ calls (run L argv w) = []) \/
  (exists e c,
      raised = LibraryError e /\
      In c (calls (run L argv w)) /\
      call_raised c = Some e).
Proof.
  cases_of_run L argv w; intros Hexc; try discriminate Hexc;
    injection Hexc as <-.
  - left. repeat split. exact Harg.
  - right. eexists _, _. split; [reflexivity |]. split; [left; reflexivity | reflexivity].
  - right. eexists _, _. split; [reflexivity |].
    split; [right; left; reflexivity | reflexivity].
Qed.

End Further.

(** ** The further results on concrete command lines *)

Lemma exit_zero_iff_both_return_witness :
  let argv := [Mock.script; "gpt2"] in
  exit_status (run Mock.lib argv Mock.disk0) = 0%Z /\
  exists a t w1 x,
    nth_error argv 1 = Some a /\
    from_pretrained Mock.lib a Mock.disk0 = (Returned t, w1) /\
    save_pretrained Mock.lib t a w1 = (Returned x, final (run Mock.lib argv Mock.disk0)).
Proof.
  intros argv.
  split; [reflexivity |].
  apply (proj1 (exit_zero_iff_both_return Mock.lib argv Mock.disk0)).
  reflexivity.
Defined.

Lemma index_error_iff_no_argument_witness :
  length [Mock.script] <= 1 /\
  uncaught (run Mock.lib [Mock.script] Mock.disk0) = Some IndexError /\
  calls (run Mock.lib [Mock.script] Mock.disk0) = [].
Proof.
  split; [apply le_n |].
  split.
  - apply (proj2 (proj1 (index_error_iff_no_argument Mock.lib [Mock.script] Mock.disk0))).
    apply le_n.
  - apply (proj2 (proj2 (index_error_iff_no_argument Mock.lib [Mock.script] Mock.disk0))).
    apply le_n.
Defined.

Lemma save_failure_not_rolled_back_witness :
  let argv := [Mock.script; ""; "gpt2"] in
  let e := "cannot write to an empty path" in
  nth_error argv 1 = Some "" /\
  from_pretrained Mock.lib "" Mock.disk0 = (Returned ["z"], Mock.disk0) /\
  save_pretrained Mock.lib ["z"] "" Mock.disk0 = (Raised e, Mock.disk0) /\
  uncaught (run Mock.lib argv Mock.disk0) = Some (LibraryError e) /\
  exit_status (run Mock.lib argv Mock.disk0) = 1%Z /\
  diagnostic (run Mock.lib argv Mock.disk0) = Some e /\
  calls (run Mock.lib argv Mock.disk0)
    = [Loaded (L := Mock.lib) "" (Returned ["z"]);
       Saved (L := Mock.lib) ["z"] "" (Raised e)] /\
  final (run Mock.lib argv Mock.disk0) = Mock.disk0.
Proof.
  intros argv e.
  split; [reflexivity |]. split; [reflexivity |]. split; [reflexivity |].
  apply (save_failure_not_rolled_back Mock.lib argv Mock.disk0
           "" ["z"] Mock.disk0 e Mock.disk0); reflexivity.
Defined.

Lemma argument_reaches_loader_unvalidated_witness :
  let argv := [Mock.script; ""] in
  nth_error argv 1 = Some "" /\
  exists rest,
    calls (run Mock.lib argv Mock.disk0)
      = Loaded (L := Mock.lib) "" (fst (from_pretrained Mock.lib "" Mock.disk0)) :: rest /\
    Forall (fun c => is_save c = true) rest.
Proof.
  intros argv.
  split; [reflexivity |].
  apply (argument_reaches_loader_unvalidated Mock.lib argv Mock.disk0 "").
  reflexivity.
Defined.

Lemma save_attempted_iff_load_returned_witness :
  let argv := [Mock.script; "gpt2"] in
  (exists a t w1,
      nth_error argv 1 = Some a /\
      from_pretrained Mock.lib a Mock.disk0 = (Returned t, w1)) /\
  (exists c, In c (calls (run Mock.lib argv Mock.disk0)) /\ is_save c = true).
Proof.
  intros argv.
  assert (Hload : exists a t w1,
             nth_error argv 1 = Some a /\
             from_pretrained Mock.lib a Mock.disk0 = (Returned t, w1)).
  { exists "gpt2", ["a"; "b"], Mock.disk0. split; reflexivity. }
  split; [exact Hload |].
  exact (proj2 (save_attempted_iff_load_returned Mock.lib argv Mock.disk0) Hload).
Defined.

Lemma failure_causes_witness :
  let argv := [Mock.script; "bert"] in
  let raised := LibraryError (LibError := LibError Mock.lib) "no tokenizer found in bert" in
  uncaught (run Mock.lib argv Mock.disk0) = Some raised /\
  ((raised = IndexError /\ nth_error argv 1 = None /\
    calls (run Mock.lib argv Mock.disk0) = []) \/
   (exists e c,
       raised = LibraryError e /\
       In c (calls (run Mock.lib argv Mock.disk0)) /\
       call_raised c = Some e)).
Proof.
  intros argv raised.
  split; [reflexivity |].
  apply (failure_causes Mock.lib argv Mock.disk0 raised).
  reflexivity.
Defined.
